(** * The August integration entry point (homeassistant/components/august/__init__.py)

    A shallow embedding of the module's four coroutines

      - [async_setup_entry]
      - [async_setup_august]
      - [async_remove_config_entry_device]

    as programs of a small state-and-exception monad ([async_unload_entry]
    only hands back what the host's [async_unload_platforms] returns and is
    left out).  The module is glue
    code: almost every statement is a call into a collaborator (the yalexs
    gateway, the host's config-entry manager, the event bus).  A collaborator
    call is modelled by what the module can observe of it: the call is
    appended to the history of the run, and the call either returns or raises
    an exception, as decided by the [Collaborators] the run is executed
    against. *)

From stdpp Require Import gmap strings list.

Set Default Proof Using "Type".

(** ** Python values and exceptions *)

(** Values of the [entry.data] mapping.  The module never inspects them. *)
Inductive pyvalue :=
| PyNone
| PyBool (b : bool)
| PyInt (z : Z)
| PyStr (s : string).

#[global] Instance pyvalue_eq_dec : EqDecision pyvalue.
Proof. solve_decision. Defined.

(** The exception classes the module names, and any other class by name. *)
Inductive exc_class :=
| RequireValidation
| InvalidAuth
| TimeoutError
| AugustApiAIOHTTPError
| ClientResponseError
| CannotConnect
| ConfigEntryAuthFailed
| ConfigEntryNotReady
| AttributeError
| OtherClass (name : string).

#[global] Instance exc_class_eq_dec : EqDecision exc_class.
Proof. solve_decision. Defined.

(** An exception object: its class, the arguments it was built with, and
    [__cause__], which [raise ... from err] sets to [err]. *)
#[local] Unset Elimination Schemes.
Inductive exn :=
| Exn (exc_type : exc_class) (exc_args : list string) (exc_cause : option exn).

#[local] Set Elimination Schemes.

Definition exc_type (e : exn) : exc_class :=
  match e with Exn c _ _ => c end.

Definition exc_args (e : exn) : list string :=
  match e with Exn _ a _ => a end.

Definition exc_cause (e : exn) : option exn :=
  match e with Exn _ _ c => c end.

(** ** Host objects *)

Record HomeAssistant := { config_dir : string }.

Record ConfigEntry := { entry_id : string; data : gmap string pyvalue }.

Record ClientSession := { session_hass : HomeAssistant }.

(** [AugustGateway(Path(hass.config.config_dir), session)] *)
Record AugustGateway := { gateway_path : string; gateway_session : ClientSession }.

(** [AugustData(hass, entry, august_gateway)] *)
Record AugustData := {
  data_hass : HomeAssistant;
  data_entry : ConfigEntry;
  data_gateway : AugustGateway
}.

(** Callables handed to the host: the bound method [data.async_stop], and
    the remover that [hass.bus.async_listen] returns. *)
Inductive callback :=
| async_stop (d : AugustData)
| remove_listener (event_type : string) (listener : callback).

Record DeviceEntry := { identifiers : gset (string * string) }.

#[global] Instance HomeAssistant_eq_dec : EqDecision HomeAssistant.
Proof. solve_decision. Defined.
#[global] Instance ConfigEntry_eq_dec : EqDecision ConfigEntry.
Proof. solve_decision. Defined.
#[global] Instance ClientSession_eq_dec : EqDecision ClientSession.
Proof. solve_decision. Defined.
#[global] Instance AugustGateway_eq_dec : EqDecision AugustGateway.
Proof. solve_decision. Defined.
#[global] Instance AugustData_eq_dec : EqDecision AugustData.
Proof. solve_decision. Defined.
#[global] Instance callback_eq_dec : EqDecision callback.
Proof. solve_decision. Defined.

(** ** Effects of a run *)

(** What a run does to the outside: each call into a collaborator with its
    arguments, and the one attribute assignment [entry.runtime_data = ...]. *)
Inductive effect :=
| async_create_august_clientsession (hass : HomeAssistant)
| AugustGateway_init (path : string) (session : ClientSession)
| gateway_async_setup (gw : AugustGateway) (config : gmap string pyvalue)
| async_update_entry (entry : ConfigEntry) (new_data : gmap string pyvalue)
| gateway_async_authenticate (gw : AugustGateway)
| gateway_async_refresh_access_token_if_needed (gw : AugustGateway)
| AugustData_init (hass : HomeAssistant) (entry : ConfigEntry) (gw : AugustGateway)
| set_runtime_data (entry : ConfigEntry) (d : AugustData)
| bus_async_listen (event_type : string) (listener : callback)
| entry_async_on_unload (entry : ConfigEntry) (cb : callback)
| data_async_setup (d : AugustData)
| async_forward_entry_setups (entry : ConfigEntry) (platforms : list string).

#[global] Instance effect_eq_dec : EqDecision effect.
Proof. solve_decision. Defined.

(** The mutable state a run works on: the [runtime_data] attribute of the
    config entries, by entry id (unset until assigned), and the history of
    effects so far. *)
Record world := {
  runtime_data : gmap string AugustData;
  history : list effect
}.

Inductive outcome (A : Type) :=
| Return (a : A)
| Raise (e : exn).
Arguments Return {A} a.
Arguments Raise {A} e.

(** ** What the module imports *)

(** Constants and declarations of modules that are not part of this file:
    [homeassistant.const], [.const], the class hierarchy of the exception
    classes, and [AugustData.get_device] with the truth value of what it
    returns. *)
Class Imports := {
  CONF_PASSWORD : string;
  EVENT_HOMEASSISTANT_STOP : string;
  DOMAIN : string;
  PLATFORMS : list string;
  (** the proper ancestors of an exception class *)
  bases : exc_class → list exc_class;
  PyObject : Type;
  (** Python's truth-value test [bool(x)] *)
  truth : PyObject → bool;
  get_device : AugustData → string → PyObject
}.

(** The behaviour of the collaborators: given the effects so far and the
    call being made, [None] when the call returns and [Some e] when it raises
    [e]. *)
Class Collaborators := raises : list effect → effect → option exn.

(** ** The monad *)

Definition M (A : Type) : Type := world → world * outcome A.

Definition ret {A} (a : A) : M A := fun w => (w, Return a).

Definition raise {A} (e : exn) : M A := fun w => (w, Raise e).

Definition bind {A B} (m : M A) (k : A → M B) : M B :=
  fun w =>
    match m w with
    | (w', Return a) => k a w'
    | (w', Raise e) => (w', Raise e)
    end.

#[global] Instance M_ret : MRet M := @ret.
#[global] Instance M_bind : MBind M := fun A B k m => bind m k.

(** [try: m except handler]: an exception raised by [m] is handed to
    [handler]; a handler with no matching clause re-raises it. *)
Definition try_except {A} (m : M A) (handler : exn → M A) : M A :=
  fun w =>
    match m w with
    | (w', Return a) => (w', Return a)
    | (w', Raise e) => handler e w'
    end.

(** [raise cls(args...) from err] *)
Definition raise_from {A} (cls : exc_class) (args : list string) (err : exn) : M A :=
  raise (Exn cls args (Some err)).

Definition record (ef : effect) (w : world) : world :=
  {| runtime_data := runtime_data w; history := history w ++ [ef] |}.

(** A call into a collaborator. *)
Definition call `{Collaborators} (ef : effect) : M unit :=
  fun w =>
    match raises (history w) ef with
    | None => (record ef w, Return tt)
    | Some e => (record ef w, Raise e)
    end.

(** [entry.runtime_data = d] *)
Definition assign_runtime_data (entry : ConfigEntry) (d : AugustData) : M unit :=
  fun w =>
    ({| runtime_data := <[entry_id entry := d]> (runtime_data w);
        history := history w ++ [set_runtime_data entry d] |},
     Return tt).

(** [config_entry.runtime_data]; the attribute does not exist until it has
    been assigned. *)
Definition read_runtime_data (config_entry : ConfigEntry) : M AugustData :=
  fun w =>
    match runtime_data w !! entry_id config_entry with
    | Some d => (w, Return d)
    | None => (w, Raise (Exn AttributeError ["runtime_data"] None))
    end.

(** [key in mapping] *)
Definition py_in (key : string) (mapping : gmap string pyvalue) : bool :=
  match mapping !! key with
  | Some _ => true
  | None => false
  end.

(** ** The module *)

Section August.
Context `{imports : Imports} `{collaborators : Collaborators}.

Definition issubclass (c d : exc_class) : bool :=
  bool_decide (c = d) || bool_decide (d ∈ bases c).

Definition isinstance (e : exn) (d : exc_class) : bool :=
  issubclass (exc_type e) d.

Definition async_setup_august
    (hass : HomeAssistant) (entry : ConfigEntry) (august_gateway : AugustGateway)
    : M bool :=
  let config := data entry in
  call (gateway_async_setup august_gateway config) ;;
  (if py_in CONF_PASSWORD (data entry) then
     let config_data := data entry in
     let config_data := delete CONF_PASSWORD config_data in
     call (async_update_entry entry config_data)
   else ret tt) ;;
  call (gateway_async_authenticate august_gateway) ;;
  call (gateway_async_refresh_access_token_if_needed august_gateway) ;;
  call (AugustData_init hass entry august_gateway) ;;
  let d := {| data_hass := hass; data_entry := entry;
              data_gateway := august_gateway |} in
  assign_runtime_data entry d ;;
  call (bus_async_listen EVENT_HOMEASSISTANT_STOP (async_stop d)) ;;
  call (entry_async_on_unload entry
          (remove_listener EVENT_HOMEASSISTANT_STOP (async_stop d))) ;;
  call (entry_async_on_unload entry (async_stop d)) ;;
  call (data_async_setup d) ;;
  call (async_forward_entry_setups entry PLATFORMS) ;;
  ret true.

Definition async_setup_entry (hass : HomeAssistant) (entry : ConfigEntry) : M bool :=
  call (async_create_august_clientsession hass) ;;
  let session := {| session_hass := hass |} in
  call (AugustGateway_init (config_dir hass) session) ;;
  let august_gateway :=
    {| gateway_path := config_dir hass; gateway_session := session |} in
  try_except (async_setup_august hass entry august_gateway)
    (fun err =>
       if isinstance err RequireValidation || isinstance err InvalidAuth then
         raise_from ConfigEntryAuthFailed [] err
       else if isinstance err TimeoutError then
         raise_from ConfigEntryNotReady ["Timed out connecting to august api"] err
       else if isinstance err AugustApiAIOHTTPError
               || isinstance err ClientResponseError
               || isinstance err CannotConnect then
         raise_from ConfigEntryNotReady [] err
       else raise err).

(** A tuple is true when it is not empty; an identifier is a pair. *)
Definition tuple_truth (identifier : string * string) : bool := true.

(** [any(identifier for identifier in ids if identifier[0] == DOMAIN and
    config_entry.runtime_data.get_device(identifier[1]))]: the filter is
    evaluated left to right, [runtime_data] is read only for an identifier
    of this domain, and [any] stops at the first true element. *)
Fixpoint any_present (config_entry : ConfigEntry) (ids : list (string * string))
    : M bool :=
  match ids with
  | [] => ret false
  | identifier :: rest =>
      keep ← (if String.eqb identifier.1 DOMAIN then
                rd ← read_runtime_data config_entry;
                ret (truth (get_device rd identifier.2))
              else ret false);
      if keep && tuple_truth identifier then ret true
      else any_present config_entry rest
  end.

Definition async_remove_config_entry_device
    (hass : HomeAssistant) (config_entry : ConfigEntry) (device_entry : DeviceEntry)
    : M bool :=
  found ← any_present config_entry (elements (identifiers device_entry));
  ret (negb found).

End August.

(** ** Observations on a run *)

(** The effects a run has added to the history. *)
Definition effects_since (w w' : world) : list effect :=
  drop (length (history w)) (history w').

(** [before a b l]: the first [a] of [l] is followed, later, by a [b]. *)
Fixpoint before (a b : effect) (l : list effect) : bool :=
  match l with
  | [] => false
  | x :: rest => if decide (x = a) then bool_decide (b ∈ rest) else before a b rest
  end.

(** The calls of [async_update_entry] among the effects: the entry and the
    [data] argument of each. *)
Definition entry_updates (l : list effect)
    : list (ConfigEntry * gmap string pyvalue) :=
  omap (fun ef =>
          match ef with
          | async_update_entry entry new_data => Some (entry, new_data)
          | _ => None
          end) l.

(** The callee of an effect, as the source writes it. *)
Definition callee (ef : effect) : string :=
  match ef with
  | async_create_august_clientsession _ => "async_create_august_clientsession"
  | AugustGateway_init _ _ => "AugustGateway"
  | gateway_async_setup _ _ => "august_gateway.async_setup"
  | async_update_entry _ _ => "hass.config_entries.async_update_entry"
  | gateway_async_authenticate _ => "august_gateway.async_authenticate"
  | gateway_async_refresh_access_token_if_needed _ =>
      "august_gateway.async_refresh_access_token_if_needed"
  | AugustData_init _ _ _ => "AugustData"
  | set_runtime_data _ _ => "entry.runtime_data ="
  | bus_async_listen _ _ => "hass.bus.async_listen"
  | entry_async_on_unload _ _ => "entry.async_on_unload"
  | data_async_setup _ => "data.async_setup"
  | async_forward_entry_setups _ _ => "hass.config_entries.async_forward_entry_setups"
  end.

Section Expected.
Context `{imports : Imports}.

(** The gateway [async_setup_entry] builds. *)
Definition gateway_of (hass : HomeAssistant) : AugustGateway :=
  {| gateway_path := config_dir hass;
     gateway_session := {| session_hass := hass |} |}.

Definition august_data_of
    (hass : HomeAssistant) (entry : ConfigEntry) (gw : AugustGateway) : AugustData :=
  {| data_hass := hass; data_entry := entry; data_gateway := gw |}.

Definition has_password (entry : ConfigEntry) : bool :=
  py_in CONF_PASSWORD (data entry).

(** The effects of a run of [async_setup_august] in which no call raises. *)
Definition setup_august_effects
    (hass : HomeAssistant) (entry : ConfigEntry) (gw : AugustGateway) : list effect :=
  let d := august_data_of hass entry gw in
  [gateway_async_setup gw (data entry)]
  ++ (if has_password entry
      then [async_update_entry entry (delete CONF_PASSWORD (data entry))]
      else [])
  ++ [gateway_async_authenticate gw;
      gateway_async_refresh_access_token_if_needed gw;
      AugustData_init hass entry gw;
      set_runtime_data entry d;
      bus_async_listen EVENT_HOMEASSISTANT_STOP (async_stop d);
      entry_async_on_unload entry
        (remove_listener EVENT_HOMEASSISTANT_STOP (async_stop d));
      entry_async_on_unload entry (async_stop d);
      data_async_setup d;
      async_forward_entry_setups entry PLATFORMS].

(** The effects of a run of [async_setup_entry] in which no call raises. *)
Definition setup_entry_effects (hass : HomeAssistant) (entry : ConfigEntry)
    : list effect :=
  [async_create_august_clientsession hass;
   AugustGateway_init (config_dir hass) {| session_hass := hass |}]
  ++ setup_august_effects hass entry (gateway_of hass).

(** The callees of [async_setup_august], in program order; the entry update
    is there when [with_update] is set. *)
Definition setup_august_callees (with_update : bool) : list string :=
  ["august_gateway.async_setup"]
  ++ (if with_update then ["hass.config_entries.async_update_entry"] else [])
  ++ ["august_gateway.async_authenticate";
      "august_gateway.async_refresh_access_token_if_needed";
      "AugustData";
      "entry.runtime_data =";
      "hass.bus.async_listen";
      "entry.async_on_unload";
      "entry.async_on_unload";
      "data.async_setup";
      "hass.config_entries.async_forward_entry_setups"].

(** The statements of [async_setup_entry] before its [try]. *)
Definition open_gateway `{collaborators : Collaborators} (hass : HomeAssistant)
    : M unit :=
  call (async_create_august_clientsession hass) ;;
  call (AugustGateway_init (config_dir hass) {| session_hass := hass |}).

End Expected.

(** ** Sample inputs *)

Definition sample_object := option string.

(** An instance of the imports: the host's constant values, a hierarchy in
    which every class derives from [Exception] only, except [TimeoutError]
    (an [OSError]) and aiohttp's [ServerTimeoutError] (a [TimeoutError]);
    one known device, [lock1]. *)
Definition sample_imports : Imports := {|
  CONF_PASSWORD := "password";
  EVENT_HOMEASSISTANT_STOP := "homeassistant_stop";
  DOMAIN := "august";
  PLATFORMS := ["binary_sensor"; "lock"; "sensor"];
  bases := fun c =>
    match c with
    | TimeoutError =>
        [OtherClass "OSError"; OtherClass "Exception"; OtherClass "BaseException"]
    | OtherClass "ServerTimeoutError" =>
        [TimeoutError; OtherClass "OSError"; OtherClass "Exception";
         OtherClass "BaseException"]
    | _ => [OtherClass "Exception"; OtherClass "BaseException"]
    end;
  PyObject := sample_object;
  truth := fun o => match o with Some _ => true | None => false end;
  get_device := fun _ device_id =>
    if String.eqb device_id "lock1" then Some "Front Door" else None
|}.

(** Collaborators that never raise. *)
Definition all_return : Collaborators := fun _ _ => None.

(** Collaborators of which one call raises [e], the others return. *)
Definition raising (at_call : effect → bool) (e : exn) : Collaborators :=
  fun _ ef => if at_call ef then Some e else None.

Definition is_authenticate (ef : effect) : bool :=
  match ef with gateway_async_authenticate _ => true | _ => false end.

Definition is_gateway_setup (ef : effect) : bool :=
  match ef with gateway_async_setup _ _ => true | _ => false end.

Definition sample_hass : HomeAssistant := {| config_dir := "/config" |}.

Definition entry_with_password : ConfigEntry :=
  {| entry_id := "e1";
     data := {[ "username" := PyStr "u"; "password" := PyStr "p" ]} |}.

Definition entry_without_password : ConfigEntry :=
  {| entry_id := "e2"; data := {[ "username" := PyStr "u" ]} |}.

Definition empty_world : world := {| runtime_data := ∅; history := [] |}.

(** The world after a run of [async_setup_entry] in which nothing raised. *)
Definition loaded_world : world :=
  (async_setup_entry (imports := sample_imports) (collaborators := all_return)
     sample_hass entry_without_password empty_world).1.

(** Collaborators whose [async_authenticate] raises, and collaborators whose
    gateway [async_setup] raises. *)
Definition invalid_auth : Collaborators :=
  raising is_authenticate (Exn InvalidAuth [] None).

Definition server_timeout : Collaborators :=
  raising is_authenticate (Exn (OtherClass "ServerTimeoutError") [] None).

Definition cannot_connect : Collaborators :=
  raising is_gateway_setup (Exn CannotConnect [] None).

Definition value_error : Collaborators :=
  raising is_authenticate (Exn (OtherClass "ValueError") [] None).

(** The world when [async_setup_entry] enters its [try], and the world when
    [async_setup_august] has finished there. *)
Definition opened_world (col : Collaborators) : world :=
  (open_gateway (collaborators := col) sample_hass empty_world).1.

Definition setup_world (col : Collaborators) (entry : ConfigEntry) : world :=
  (async_setup_august (imports := sample_imports) (collaborators := col)
     sample_hass entry (gateway_of sample_hass) (opened_world col)).1.

(** The operations a run of [async_setup_august] performs on [entry] when no
    call raises. *)
Definition sample_operations (entry : ConfigEntry) : list string :=
  callee <$> effects_since empty_world
    (async_setup_august (imports := sample_imports) (collaborators := all_return)
       sample_hass entry (gateway_of sample_hass) empty_world).1.

Definition sample_device (ids : list (string * string)) : DeviceEntry :=
  {| identifiers := list_to_set ids |}.

(** Collaborators whose session factory times out, and collaborators whose
    [data.async_setup] cannot connect. *)
Definition is_create_session (ef : effect) : bool :=
  match ef with async_create_august_clientsession _ => true | _ => false end.

Definition is_data_setup (ef : effect) : bool :=
  match ef with data_async_setup _ => true | _ => false end.

Definition session_timeout : Collaborators :=
  raising is_create_session (Exn TimeoutError [] None).

Definition data_setup_fails : Collaborators :=
  raising is_data_setup (Exn CannotConnect [] None).

(** [entry_with_password] once the host has stored the update. *)
Definition entry_after_update : ConfigEntry :=
  {| entry_id := "e1"; data := {[ "username" := PyStr "u" ]} |}.

(** The effects of a run of [async_setup_august] on [entry_with_password]
    against the collaborators [col]. *)
Definition sample_effects (col : Collaborators) : list effect :=
  effects_since empty_world
    (async_setup_august (imports := sample_imports) (collaborators := col)
       sample_hass entry_with_password (gateway_of sample_hass) empty_world).1.

(** * Properties *)

Section Properties.
Context `{imports : Imports} `{collaborators : Collaborators}.

(** ** The monad and the effects *)

Lemma call_returns (ef : effect) (w : world) :
  raises (history w) ef = None → call ef w = (record ef w, Return tt).
Proof. intros Hr. unfold call. by rewrite Hr. Qed.

Lemma call_raises (ef : effect) (w : world) (e : exn) :
  raises (history w) ef = Some e → call ef w = (record ef w, Raise e).
Proof. intros Hr. unfold call. by rewrite Hr. Qed.

Lemma effects_since_app (w w' : world) (l : list effect) :
  history w' = history w ++ l → effects_since w w' = l.
Proof. intros Hh. unfold effects_since. by rewrite Hh, drop_app_length. Qed.

Lemma py_in_dom (key : string) (mapping : gmap string pyvalue) :
  py_in key mapping = true ↔ key ∈ dom mapping.
Proof.
  unfold py_in. rewrite elem_of_dom.
  destruct (mapping !! key) as [v|]; split; intros Hk; done.
Qed.

(** ** Runs of [async_setup_august] *)

Ltac step_call :=
  match goal with
  | |- context [raises ?h ?ef] =>
      let Hr := fresh "Hr" in
      destruct (raises h ef) eqn:Hr; cbn [record history runtime_data]
  end.

Ltac raised_at n :=
  exists n; cbn [length take app];
  split; [lia | split; [by rewrite <- ?app_assoc | done]].

(** Either nothing raises, the run returns [True] and has had all its
    effects, or a call raises and the run has had the effects up to that
    call. *)
Lemma async_setup_august_run hass entry gw w :
  let effs := setup_august_effects hass entry gw in
  match async_setup_august hass entry gw w with
  | (w', Return b) =>
      b = true ∧ history w' = history w ++ effs
      ∧ runtime_data w'
        = <[entry_id entry := august_data_of hass entry gw]> (runtime_data w)
      ∧ raises (history w) (gateway_async_setup gw (data entry)) = None
  | (w', Raise e) =>
      ∃ n, n < length effs ∧ history w' = history w ++ take (S n) effs
           ∧ raises (history w) (gateway_async_setup gw (data entry))
             = match n with 0 => Some e | S _ => None end
  end.
Proof.
  unfold setup_august_effects, has_password, august_data_of, async_setup_august.
  unfold mbind, M_bind, bind, ret, assign_runtime_data, call.
  destruct (py_in CONF_PASSWORD (data entry)); cbn [record history runtime_data app].
  - step_call; [raised_at 0|].
    step_call; [raised_at 1|].
    step_call; [raised_at 2|].
    step_call; [raised_at 3|].
    step_call; [raised_at 4|].
    step_call; [raised_at 6|].
    step_call; [raised_at 7|].
    step_call; [raised_at 8|].
    step_call; [raised_at 9|].
    step_call; [raised_at 10|].
    repeat split; by rewrite <- ?app_assoc.
  - step_call; [raised_at 0|].
    step_call; [raised_at 1|].
    step_call; [raised_at 2|].
    step_call; [raised_at 3|].
    step_call; [raised_at 5|].
    step_call; [raised_at 6|].
    step_call; [raised_at 7|].
    step_call; [raised_at 8|].
    step_call; [raised_at 9|].
    repeat split; by rewrite <- ?app_assoc.
Qed.

Lemma before_cons_eq (a b : effect) (l : list effect) :
  b ∈ l → before a b (a :: l) = true.
Proof.
  intros Hb. cbn [before]. rewrite decide_True by done.
  by apply bool_decide_eq_true.
Qed.

Lemma before_cons_ne (a b x : effect) (l : list effect) :
  x ≠ a → before a b l = true → before a b (x :: l) = true.
Proof. intros Hx Hl. cbn [before]. by rewrite decide_False. Qed.

Ltac solve_elem_of :=
  repeat first [ apply list_elem_of_here | apply list_elem_of_further ].

Ltac solve_before :=
  cbn [app];
  repeat first
    [ apply before_cons_eq; solve_elem_of; fail
    | apply before_cons_ne; [discriminate |] ].

(** A run of [async_setup_entry] returns exactly when the statements before
    the [try] and [async_setup_august] return, with the same value. *)
Lemma async_setup_entry_returns hass entry w w' r :
  async_setup_entry hass entry w = (w', Return r) →
  ∃ w1, open_gateway hass w = (w1, Return tt)
        ∧ history w1 = history w
            ++ [async_create_august_clientsession hass;
                AugustGateway_init (config_dir hass) {| session_hass := hass |}]
        ∧ async_setup_august hass entry (gateway_of hass) w1 = (w', Return r).
Proof.
  unfold async_setup_entry, open_gateway, gateway_of.
  unfold mbind, M_bind, bind, try_except, call.
  do 2 (step_call; [done|]).
  match goal with
  | |- context [async_setup_august ?h ?e ?g ?v] =>
      destruct (async_setup_august h e g v) as [w2 [b|err]] eqn:Hrun
  end.
  - intros [= <- <-]. eexists. split; [done|]. split; [|done].
    cbn [history record]. by rewrite <- app_assoc.
  - unfold raise_from, raise.
    repeat match goal with |- context [if ?c then _ else _] => destruct c end;
      done.
Qed.

(** The [except] clauses, tried in order, on the exception [async_setup_august]
    raised. *)
Lemma async_setup_entry_except hass entry w w1 w' err :
  open_gateway hass w = (w1, Return tt) →
  async_setup_august hass entry (gateway_of hass) w1 = (w', Raise err) →
  async_setup_entry hass entry w =
    (w', Raise
           (if isinstance err RequireValidation || isinstance err InvalidAuth then
              Exn ConfigEntryAuthFailed [] (Some err)
            else if isinstance err TimeoutError then
              Exn ConfigEntryNotReady ["Timed out connecting to august api"] (Some err)
            else if isinstance err AugustApiAIOHTTPError
                    || isinstance err ClientResponseError
                    || isinstance err CannotConnect then
              Exn ConfigEntryNotReady [] (Some err)
            else err)).
Proof.
  unfold async_setup_entry, open_gateway, gateway_of.
  unfold mbind, M_bind, bind, try_except, call.
  do 2 (step_call; [done|]).
  intros [= <-] ->. unfold raise_from, raise.
  repeat match goal with |- context [if ?c then _ else _] => destruct c end;
    done.
Qed.

(** ** Exception translation *)

(** C1: whenever the statements before the [try] have returned and
    [async_setup_august] raises an exception that is a [RequireValidation] or
    an [InvalidAuth], [async_setup_entry] raises [ConfigEntryAuthFailed]
    whose [__cause__] is that exception. *)
Theorem setup_entry_auth_failed hass entry w w1 w' err :
  open_gateway hass w = (w1, Return tt) →
  async_setup_august hass entry (gateway_of hass) w1 = (w', Raise err) →
  isinstance err RequireValidation = true ∨ isinstance err InvalidAuth = true →
  async_setup_entry hass entry w
  = (w', Raise (Exn ConfigEntryAuthFailed [] (Some err))).
Proof.
  intros Hopen Hrun Hcls.
  rewrite (async_setup_entry_except _ _ _ _ _ _ Hopen Hrun).
  by destruct Hcls as [-> | ->]; rewrite ?orb_true_r.
Qed.

(** C2: whenever [async_setup_august] raises a [TimeoutError],
    [async_setup_entry] raises [ConfigEntryNotReady] whose [__cause__] is
    that exception.  The clauses are tried in order, so the exception is one
    the first clause has not taken: its class derives from neither
    [RequireValidation] nor [InvalidAuth]. *)
Theorem setup_entry_timeout_not_ready hass entry w w1 w' err :
  open_gateway hass w = (w1, Return tt) →
  async_setup_august hass entry (gateway_of hass) w1 = (w', Raise err) →
  isinstance err TimeoutError = true →
  isinstance err RequireValidation = false →
  isinstance err InvalidAuth = false →
  async_setup_entry hass entry w
  = (w', Raise (Exn ConfigEntryNotReady
                  ["Timed out connecting to august api"] (Some err))).
Proof.
  intros Hopen Hrun Htimeout Hrv Hia.
  rewrite (async_setup_entry_except _ _ _ _ _ _ Hopen Hrun).
  by rewrite Hrv, Hia, Htimeout.
Qed.

(** C3: whenever [async_setup_august] raises an [AugustApiAIOHTTPError], a
    [ClientResponseError] or a [CannotConnect], [async_setup_entry] raises an
    exception of class [ConfigEntryNotReady] whose [__cause__] is that
    exception.  As for the timeout, the exception is one the first clause has
    not taken. *)
Theorem setup_entry_api_error_not_ready hass entry w w1 w' err :
  open_gateway hass w = (w1, Return tt) →
  async_setup_august hass entry (gateway_of hass) w1 = (w', Raise err) →
  isinstance err AugustApiAIOHTTPError = true
  ∨ isinstance err ClientResponseError = true
  ∨ isinstance err CannotConnect = true →
  isinstance err RequireValidation = false →
  isinstance err InvalidAuth = false →
  ∃ raised, async_setup_entry hass entry w = (w', Raise raised)
            ∧ exc_type raised = ConfigEntryNotReady
            ∧ exc_cause raised = Some err.
Proof.
  intros Hopen Hrun Hcls Hrv Hia.
  rewrite (async_setup_entry_except _ _ _ _ _ _ Hopen Hrun).
  rewrite Hrv, Hia. cbn [orb].
  destruct (isinstance err TimeoutError); [by eexists|].
  eexists. split; [done|].
  by destruct Hcls as [-> | [-> | ->]]; rewrite ?orb_true_r.
Qed.

(** C4: an exception raised by [async_setup_august] that is an instance of
    none of the six classes of the [except] clauses leaves
    [async_setup_entry] as it is. *)
Theorem setup_entry_propagates hass entry w w1 w' err :
  open_gateway hass w = (w1, Return tt) →
  async_setup_august hass entry (gateway_of hass) w1 = (w', Raise err) →
  isinstance err RequireValidation = false →
  isinstance err InvalidAuth = false →
  isinstance err TimeoutError = false →
  isinstance err AugustApiAIOHTTPError = false →
  isinstance err ClientResponseError = false →
  isinstance err CannotConnect = false →
  async_setup_entry hass entry w = (w', Raise err).
Proof.
  intros Hopen Hrun Hrv Hia Hto Hapi Hcr Hcc.
  rewrite (async_setup_entry_except _ _ _ _ _ _ Hopen Hrun).
  by rewrite Hrv, Hia, Hto, Hapi, Hcr, Hcc.
Qed.

(** ** Runs that return *)

(** When no call raises, the run returns. *)
Lemma async_setup_august_returns hass entry gw w :
  (∀ h ef, raises h ef = None) →
  (async_setup_august hass entry gw w).2 = Return true.
Proof.
  intros Hall. unfold async_setup_august.
  unfold mbind, M_bind, bind, ret, assign_runtime_data, call.
  destruct (py_in CONF_PASSWORD (data entry)); by rewrite !Hall.
Qed.

Lemma async_setup_entry_returns_true hass entry w :
  (∀ h ef, raises h ef = None) →
  (async_setup_entry hass entry w).2 = Return true.
Proof.
  intros Hall. unfold async_setup_entry.
  unfold mbind, M_bind, bind, try_except, call. rewrite !Hall.
  pose proof (async_setup_august_returns hass entry (gateway_of hass)
                (record (AugustGateway_init (config_dir hass) {| session_hass := hass |})
                   (record (async_create_august_clientsession hass) w)) Hall)
    as Hrun.
  unfold gateway_of in Hrun.
  by destruct (async_setup_august _ _ _ _) as [w' [b|e]]; cbn [snd] in Hrun.
Qed.

Lemma callee_setup_august_effects hass entry gw :
  callee <$> setup_august_effects hass entry gw
  = setup_august_callees (py_in CONF_PASSWORD (data entry)).
Proof.
  unfold setup_august_effects, setup_august_callees, has_password.
  by destruct (py_in CONF_PASSWORD (data entry)).
Qed.

(** C5, as the code has it: [async_setup_august] is a linear sequence of
    calls with one conditional, the entry update, which is made exactly when
    [CONF_PASSWORD] is a key of [entry.data].  On every input the operations
    performed are, in order, those of the one sequence [setup_august_callees]:
    all of it when the run returns, and it up to the call that raised
    otherwise. *)
Theorem setup_august_linear_but_for_password hass entry gw w :
  let run := async_setup_august hass entry gw w in
  let performed := callee <$> effects_since w run.1 in
  let program := setup_august_callees (py_in CONF_PASSWORD (data entry)) in
  match run.2 with
  | Return _ => performed = program
  | Raise _ => ∃ n, n < length program ∧ performed = take (S n) program
  end.
Proof.
  intros run performed program. subst run performed program.
  pose proof (async_setup_august_run hass entry gw w) as Hrun.
  cbn zeta in Hrun.
  destruct (async_setup_august hass entry gw w) as [w' [b|e]]; cbn [fst snd].
  - destruct Hrun as (_ & Hh & _).
    rewrite (effects_since_app _ _ _ Hh). apply callee_setup_august_effects.
  - destruct Hrun as (n & Hn & Hh & _). exists n.
    rewrite (effects_since_app _ _ _ Hh), fmap_take.
    rewrite <- (callee_setup_august_effects hass entry gw).
    by rewrite length_fmap.
Qed.

(** C6: on every run of [async_setup_entry] that returns, the effects are
    those of [setup_entry_effects], in which the gateway is set up,
    authenticated and its access token refreshed before [entry.runtime_data]
    is assigned the [AugustData] object, and that assignment comes before
    setup is forwarded to [PLATFORMS]. *)
Theorem setup_entry_order hass entry w w' r :
  async_setup_entry hass entry w = (w', Return r) →
  let gw := gateway_of hass in
  let d := august_data_of hass entry gw in
  let effs := effects_since w w' in
  effs = setup_entry_effects hass entry
  ∧ before (gateway_async_setup gw (data entry)) (set_runtime_data entry d) effs = true
  ∧ before (gateway_async_authenticate gw) (set_runtime_data entry d) effs = true
  ∧ before (gateway_async_refresh_access_token_if_needed gw)
      (set_runtime_data entry d) effs = true
  ∧ runtime_data w' !! entry_id entry = Some d
  ∧ before (set_runtime_data entry d)
      (async_forward_entry_setups entry PLATFORMS) effs = true.
Proof.
  intros (w1 & _ & Hh1 & Hrun)%async_setup_entry_returns gw d effs.
  pose proof (async_setup_august_run hass entry (gateway_of hass) w1) as Hspec.
  rewrite Hrun in Hspec. cbn zeta in Hspec. destruct Hspec as (_ & Hh & Hrd & _).
  assert (effs = setup_entry_effects hass entry) as ->.
  { apply effects_since_app. rewrite Hh, Hh1. by rewrite <- app_assoc. }
  split; [done|]. rewrite Hrd, lookup_insert_eq.
  unfold setup_entry_effects, setup_august_effects. subst gw d.
  destruct (has_password entry); repeat split; solve_before.
Qed.

(** C7: on every run of [async_setup_august] that returns, [data.async_stop]
    has been registered as a listener for [EVENT_HOMEASSISTANT_STOP] and as an
    on-unload callback of the entry (as has the remover of that listener),
    each before setup is forwarded to the platforms. *)
Theorem cleanup_registered_before_forward hass entry gw w w' r :
  async_setup_august hass entry gw w = (w', Return r) →
  let d := august_data_of hass entry gw in
  let effs := effects_since w w' in
  let forward := async_forward_entry_setups entry PLATFORMS in
  before (bus_async_listen EVENT_HOMEASSISTANT_STOP (async_stop d)) forward effs = true
  ∧ before (entry_async_on_unload entry (async_stop d)) forward effs = true
  ∧ before (entry_async_on_unload entry
              (remove_listener EVENT_HOMEASSISTANT_STOP (async_stop d)))
      forward effs = true.
Proof.
  intros Hrun d effs forward.
  pose proof (async_setup_august_run hass entry gw w) as Hspec.
  rewrite Hrun in Hspec. cbn zeta in Hspec. destruct Hspec as (_ & Hh & _).
  subst effs. rewrite (effects_since_app _ _ _ Hh).
  unfold setup_august_effects. subst d forward.
  destruct (has_password entry); repeat split; solve_before.
Qed.

(** C10: a run of [async_setup_august] either raises or returns [True], and
    so does a run of [async_setup_entry]; neither returns [False]. *)
Theorem setup_never_returns_false hass entry gw w :
  match (async_setup_august hass entry gw w).2 with
  | Return r => r = true
  | Raise _ => True
  end
  ∧ match (async_setup_entry hass entry w).2 with
    | Return r => r = true
    | Raise _ => True
    end.
Proof.
  split.
  - pose proof (async_setup_august_run hass entry gw w) as Hspec.
    destruct (async_setup_august hass entry gw w) as [w' [b|e]]; [|done].
    by destruct Hspec as (-> & _).
  - destruct (async_setup_entry hass entry w) as [w' [b|e]] eqn:Hentry; [|done].
    apply async_setup_entry_returns in Hentry as (w1 & _ & _ & Hrun).
    pose proof (async_setup_august_run hass entry (gateway_of hass) w1) as Hspec.
    rewrite Hrun in Hspec. by destruct Hspec as (-> & _).
Qed.

(** ** The stored password *)

(** C8, as the code has it: when [CONF_PASSWORD] is a key of [entry.data]
    and the call of [august_gateway.async_setup] returns, the run updates the
    entry once, with data in which [CONF_PASSWORD] is not a key and every
    other key has its value of [entry.data]; when the gateway setup raises
    the run makes no update; and when [CONF_PASSWORD] is not a key the run
    makes no update either. *)
Theorem password_removed_after_gateway_setup hass entry gw w :
  let updates :=
    entry_updates (effects_since w (async_setup_august hass entry gw w).1) in
  if py_in CONF_PASSWORD (data entry) then
    match raises (history w) (gateway_async_setup gw (data entry)) with
    | None =>
        ∃ new_data, updates = [(entry, new_data)]
                    ∧ new_data !! CONF_PASSWORD = None
                    ∧ ∀ key, key ≠ CONF_PASSWORD →
                             new_data !! key = data entry !! key
    | Some _ => updates = []
    end
  else updates = [].
Proof.
  intros updates. subst updates.
  pose proof (async_setup_august_run hass entry gw w) as Hrun.
  cbn zeta in Hrun. unfold setup_august_effects, has_password in Hrun.
  destruct (async_setup_august hass entry gw w) as [w' [b|e]]; cbn [fst].
  - destruct Hrun as (_ & Hh & _ & ->).
    rewrite (effects_since_app _ _ _ Hh).
    destruct (py_in CONF_PASSWORD (data entry)); [|done].
    eexists. split; [done|]. split; [apply lookup_delete_eq|].
    intros key Hkey. by apply lookup_delete_ne.
  - destruct Hrun as (n & Hn & Hh & ->).
    rewrite (effects_since_app _ _ _ Hh).
    destruct (py_in CONF_PASSWORD (data entry)); cbn [length app] in Hn.
    + destruct n as [|n]; [done|].
      do 11 (destruct n as [|n];
             [eexists; split; [done|]; split; [apply lookup_delete_eq|];
              intros key Hkey; by apply lookup_delete_ne|]).
      lia.
    + do 11 (destruct n as [|n]; [done|]). lia.
Qed.

(** ** Removing a device *)

Lemma any_present_loaded config_entry rd ids w :
  runtime_data w !! entry_id config_entry = Some rd →
  any_present config_entry ids w
  = (w, Return (existsb (fun identifier : string * string =>
                           String.eqb identifier.1 DOMAIN
                           && truth (get_device rd identifier.2)) ids)).
Proof.
  intros Hrd. induction ids as [|identifier rest IH]; [done|].
  cbn [any_present existsb].
  unfold mbind, M_bind, bind, read_runtime_data, ret, tuple_truth.
  destruct (String.eqb identifier.1 DOMAIN); cbn [andb orb].
  - rewrite Hrd. destruct (truth (get_device rd identifier.2)); cbn [andb orb].
    + done.
    + apply IH.
  - apply IH.
Qed.

(** C9: for an entry whose [runtime_data] is set, the call returns, leaves
    the world as it is, and returns [True] exactly when no identifier of the
    device has [DOMAIN] as its first component and a second component for
    which [get_device] returns a true value. *)
Theorem remove_device_iff_absent hass config_entry device_entry w rd :
  runtime_data w !! entry_id config_entry = Some rd →
  ∃ allowed,
    async_remove_config_entry_device hass config_entry device_entry w
    = (w, Return allowed)
    ∧ (allowed = true ↔
       ¬ ∃ identifier, identifier ∈ identifiers device_entry
                       ∧ identifier.1 = DOMAIN
                       ∧ truth (get_device rd identifier.2) = true).
Proof.
  intros Hrd. unfold async_remove_config_entry_device.
  unfold mbind, M_bind, bind at 1.
  rewrite (any_present_loaded _ _ _ _ Hrd). unfold ret.
  eexists. split; [done|].
  rewrite negb_true_iff, <- not_true_iff_false, existsb_exists.
  apply not_iff_compat. split.
  - intros (identifier & Hin & [Hdom Htruth]%andb_prop).
    exists identifier. split; [|split; [|done]].
    + by apply elem_of_elements, list_elem_of_In.
    + by apply String.eqb_eq.
  - intros (identifier & Hin & Hdom & Htruth).
    exists identifier. split.
    + by apply list_elem_of_In, elem_of_elements.
    + apply andb_true_intro. split; [by apply String.eqb_eq|done].
Qed.

(** ** Runs of [async_setup_august], in full *)

Ltac solve_not_elem_of :=
  let Hin := fresh "Hin" in
  intros Hin;
  repeat (apply elem_of_cons in Hin as [Hin|Hin]; [discriminate Hin|]);
  by apply elem_of_nil in Hin.

Ltac raised_by_last :=
  match goal with
  | |- ∃ pre ef, ?l = pre ++ [ef] ∧ _ =>
      exists (removelast l); cbn [removelast]; eexists;
      split; [reflexivity|]; rewrite ?app_nil_r;
      match goal with
      | Hr : raises _ _ = Some _ |- _ => by rewrite <- ?app_assoc in Hr
      end
  end.

Ltac stopped_after k :=
  exists k; cbn [length take app fst snd record history runtime_data];
  split; [lia|]; split; [lia|];
  split; [by rewrite <- ?app_assoc|];
  split;
  [ first [ left; split; [solve_elem_of; fail | done]
          | right; split; [solve_not_elem_of | done] ]
  | first [ raised_by_last | done ] ].

(** A run has the first [k] of the effects of [setup_august_effects], for
    some [k]; [runtime_data] of the entry is assigned when the assignment is
    among them and the attribute store is as it was otherwise; a run that
    returns has had them all, and in a run that raises the exception is the
    one the last call raised. *)
Lemma async_setup_august_trace hass entry gw w :
  let effs := setup_august_effects hass entry gw in
  let d := august_data_of hass entry gw in
  let run := async_setup_august hass entry gw w in
  ∃ k, 0 < k ∧ k ≤ length effs
       ∧ history run.1 = history w ++ take k effs
       ∧ (((set_runtime_data entry d ∈ take k effs)
           ∧ runtime_data run.1 = <[entry_id entry := d]> (runtime_data w))
          ∨ ((set_runtime_data entry d ∉ take k effs)
             ∧ runtime_data run.1 = runtime_data w))
       ∧ match run.2 with
         | Return b => b = true ∧ k = length effs
         | Raise e =>
             ∃ pre ef, take k effs = pre ++ [ef]
                       ∧ raises (history w ++ pre) ef = Some e
         end.
Proof.
  unfold setup_august_effects, has_password, august_data_of, async_setup_august.
  unfold mbind, M_bind, bind, ret, assign_runtime_data, call.
  destruct (py_in CONF_PASSWORD (data entry));
    cbn [record history runtime_data app fst snd].
  - step_call; [stopped_after 1|].
    step_call; [stopped_after 2|].
    step_call; [stopped_after 3|].
    step_call; [stopped_after 4|].
    step_call; [stopped_after 5|].
    step_call; [stopped_after 7|].
    step_call; [stopped_after 8|].
    step_call; [stopped_after 9|].
    step_call; [stopped_after 10|].
    step_call; [stopped_after 11|].
    stopped_after 11.
  - step_call; [stopped_after 1|].
    step_call; [stopped_after 2|].
    step_call; [stopped_after 3|].
    step_call; [stopped_after 4|].
    step_call; [stopped_after 6|].
    step_call; [stopped_after 7|].
    step_call; [stopped_after 8|].
    step_call; [stopped_after 9|].
    step_call; [stopped_after 10|].
    stopped_after 10.
Qed.

(** ** Further properties of [async_setup_entry] *)

(** X1. The [try] of [async_setup_entry] starts after the session and the
    gateway have been made: an exception raised by
    [async_create_august_clientsession] or by the [AugustGateway] constructor
    leaves [async_setup_entry] as it is, whatever its class, and
    [async_setup_august] is not run. *)
Theorem setup_entry_untranslated_before_try hass entry w w1 e :
  open_gateway hass w = (w1, Raise e) →
  async_setup_entry hass entry w = (w1, Raise e).
Proof.
  unfold async_setup_entry, open_gateway.
  unfold mbind, M_bind, bind, try_except, call.
  step_call; [by intros [= <- <-]|].
  step_call; [by intros [= <- <-]|]. by intros [=].
Qed.

(** X2. An exception of [async_setup_august] is never swallowed and never
    leaves untranslated when an [except] clause names its class: the run of
    [async_setup_entry] raises, either that exception itself, which is then
    an instance of none of the six classes, or a [ConfigEntryAuthFailed] or
    [ConfigEntryNotReady] whose [__cause__] it is. *)
Theorem setup_entry_never_swallows hass entry w w1 w' err :
  open_gateway hass w = (w1, Return tt) →
  async_setup_august hass entry (gateway_of hass) w1 = (w', Raise err) →
  ∃ raised,
    async_setup_entry hass entry w = (w', Raise raised)
    ∧ ((raised = err
        ∧ isinstance err RequireValidation = false
        ∧ isinstance err InvalidAuth = false
        ∧ isinstance err TimeoutError = false
        ∧ isinstance err AugustApiAIOHTTPError = false
        ∧ isinstance err ClientResponseError = false
        ∧ isinstance err CannotConnect = false)
       ∨ (exc_cause raised = Some err
          ∧ (exc_type raised = ConfigEntryAuthFailed
             ∨ exc_type raised = ConfigEntryNotReady))).
Proof.
  intros Hopen Hrun.
  rewrite (async_setup_entry_except _ _ _ _ _ _ Hopen Hrun).
  eexists. split; [done|].
  destruct (isinstance err RequireValidation), (isinstance err InvalidAuth),
    (isinstance err TimeoutError), (isinstance err AugustApiAIOHTTPError),
    (isinstance err ClientResponseError), (isinstance err CannotConnect);
    cbn [orb]; first [ right; split; [done|]; by eauto | by left ].
Qed.

(** X3. The message of [ConfigEntryNotReady] tells a timeout from another
    connection failure: for an API or connection error that is no
    [TimeoutError] (and that the first clause has not taken) the exception is
    raised without arguments. *)
Theorem setup_entry_api_error_no_message hass entry w w1 w' err :
  open_gateway hass w = (w1, Return tt) →
  async_setup_august hass entry (gateway_of hass) w1 = (w', Raise err) →
  isinstance err AugustApiAIOHTTPError = true
  ∨ isinstance err ClientResponseError = true
  ∨ isinstance err CannotConnect = true →
  isinstance err RequireValidation = false →
  isinstance err InvalidAuth = false →
  isinstance err TimeoutError = false →
  async_setup_entry hass entry w
  = (w', Raise (Exn ConfigEntryNotReady [] (Some err))).
Proof.
  intros Hopen Hrun Hcls Hrv Hia Hto.
  rewrite (async_setup_entry_except _ _ _ _ _ _ Hopen Hrun).
  rewrite Hrv, Hia, Hto. cbn [orb].
  by destruct Hcls as [-> | [-> | ->]]; rewrite ?orb_true_r.
Qed.

(** ** Further properties of [async_setup_august] *)


(** X5. Nothing is rolled back when a run raises: if the run got as far as the
    assignment of [entry.runtime_data], the attribute holds the [AugustData]
    object in the end, also when a later call raised; if it did not, the
    [runtime_data] of every entry is as it was. *)
Theorem runtime_data_kept_after_late_failure hass entry gw w :
  let w' := (async_setup_august hass entry gw w).1 in
  let d := august_data_of hass entry gw in
  ((set_runtime_data entry d ∈ effects_since w w')
   ∧ runtime_data w' = <[entry_id entry := d]> (runtime_data w))
  ∨ ((set_runtime_data entry d ∉ effects_since w w')
     ∧ runtime_data w' = runtime_data w).
Proof.
  intros w' d. subst w' d.
  destruct (async_setup_august_trace hass entry gw w)
    as (k & _ & _ & Hh & Hrd & _).
  by rewrite (effects_since_app _ _ _ Hh).
Qed.

(** The world [async_setup_entry] ends in is the one the statements before
    the [try] left, when they raised, and the one [async_setup_august] left
    otherwise. *)
Lemma async_setup_entry_world hass entry w :
  (∃ e, (open_gateway hass w).2 = Raise e
        ∧ (async_setup_entry hass entry w).1 = (open_gateway hass w).1)
  ∨ ((open_gateway hass w).2 = Return tt
     ∧ (async_setup_entry hass entry w).1
       = (async_setup_august hass entry (gateway_of hass) (open_gateway hass w).1).1).
Proof.
  destruct (open_gateway hass w) as [w1 [[]|e]] eqn:Hopen; cbn [fst snd].
  - right. split; [done|].
    destruct (async_setup_august hass entry (gateway_of hass) w1)
      as [w' [b|err]] eqn:Hrun.
    + revert Hopen Hrun. unfold async_setup_entry, open_gateway, gateway_of.
      unfold mbind, M_bind, bind, try_except, call.
      do 2 (step_call; [done|]). by intros [= <-] ->.
    + by rewrite (async_setup_entry_except _ _ _ _ _ _ Hopen Hrun).
  - left. exists e. split; [done|].
    revert Hopen. unfold async_setup_entry, open_gateway.
    unfold mbind, M_bind, bind, try_except, call.
    step_call; [by intros [= <- <-]|].
    step_call; [by intros [= <- <-]|]. by intros [=].
Qed.

Lemma open_gateway_runtime_data hass w :
  runtime_data (open_gateway hass w).1 = runtime_data w.
Proof.
  unfold open_gateway. unfold mbind, M_bind, bind, call.
  step_call; [done|]. by step_call.
Qed.

(** X6. Setting up one entry never touches the [runtime_data] of another,
    whether [async_setup_entry] returns or raises. *)
Theorem setup_entry_leaves_other_entries hass entry w (other : string) :
  other ≠ entry_id entry →
  runtime_data (async_setup_entry hass entry w).1 !! other
  = runtime_data w !! other.
Proof.
  intros Hother.
  destruct (async_setup_entry_world hass entry w)
    as [(e & _ & ->) | [_ ->]].
  - by rewrite open_gateway_runtime_data.
  - destruct (async_setup_august_trace hass entry (gateway_of hass)
                (open_gateway hass w).1)
      as (k & _ & _ & _ & [[_ ->] | [_ ->]] & _).
    + rewrite lookup_insert_ne by done. by rewrite open_gateway_runtime_data.
    + by rewrite open_gateway_runtime_data.
Qed.

(** ** The order of the effects in every run *)

Ltac absurd_elem_of H := exfalso; revert H; solve_not_elem_of.

(** X7. The stored password is removed before the gateway authenticates: in a
    run on an entry with a password, returning or not, whenever
    [async_authenticate] is called the entry update has been made before. *)
Theorem password_removed_before_authenticating hass entry gw w :
  py_in CONF_PASSWORD (data entry) = true →
  let effs := effects_since w (async_setup_august hass entry gw w).1 in
  gateway_async_authenticate gw ∈ effs →
  before (async_update_entry entry (delete CONF_PASSWORD (data entry)))
    (gateway_async_authenticate gw) effs = true.
Proof.
  intros Hpw effs. subst effs.
  destruct (async_setup_august_trace hass entry gw w)
    as (k & _ & Hk & Hh & _ & _).
  rewrite (effects_since_app _ _ _ Hh). clear Hh.
  unfold setup_august_effects, has_password, august_data_of in *.
  rewrite Hpw in *. cbn [length app] in *. intros Hin.
  do 12 (destruct k as [|k];
         [cbn [take] in *; first [absurd_elem_of Hin | solve_before]|]).
  lia.
Qed.

(** X8. Setup is forwarded to the platforms last: in a run in which
    [async_forward_entry_setups] is called, returning or not, every other
    effect of [setup_august_effects] has come before. *)
Theorem platforms_forwarded_last hass entry gw w :
  let effs := effects_since w (async_setup_august hass entry gw w).1 in
  async_forward_entry_setups entry PLATFORMS ∈ effs →
  effs = setup_august_effects hass entry gw.
Proof.
  intros effs. subst effs.
  destruct (async_setup_august_trace hass entry gw w)
    as (k & _ & Hk & Hh & _ & _).
  rewrite (effects_since_app _ _ _ Hh). clear Hh.
  unfold setup_august_effects, has_password, august_data_of in *.
  destruct (py_in CONF_PASSWORD (data entry));
    cbn [length app] in *; intros Hin;
    do 12 (destruct k as [|k];
           [cbn [take] in *; first [absurd_elem_of Hin | done]|]);
    lia.
Qed.

(** X9. The cleanup callbacks are registered before the data object is set up:
    in a run in which [data.async_setup] is called, also one in which it
    raises, the stop listener and the on-unload callback are in place. *)
Theorem cleanup_registered_before_data_setup hass entry gw w :
  let d := august_data_of hass entry gw in
  let effs := effects_since w (async_setup_august hass entry gw w).1 in
  data_async_setup d ∈ effs →
  before (bus_async_listen EVENT_HOMEASSISTANT_STOP (async_stop d))
    (data_async_setup d) effs = true
  ∧ before (entry_async_on_unload entry (async_stop d))
      (data_async_setup d) effs = true.
Proof.
  intros d effs. subst d effs.
  destruct (async_setup_august_trace hass entry gw w)
    as (k & _ & Hk & Hh & _ & _).
  rewrite (effects_since_app _ _ _ Hh). clear Hh.
  unfold setup_august_effects, has_password, august_data_of in *.
  destruct (py_in CONF_PASSWORD (data entry));
    cbn [length app] in *; intros Hin;
    do 12 (destruct k as [|k];
           [cbn [take] in *;
            first [absurd_elem_of Hin | split; solve_before]|]);
    lia.
Qed.

(** X10. The data handed to [async_update_entry] needs no second update: a run on
    an entry that holds this data calls [async_update_entry] not at all. *)
Theorem stored_data_needs_no_second_update hass entry entry' gw w :
  data entry' = delete CONF_PASSWORD (data entry) →
  entry_updates (effects_since w (async_setup_august hass entry' gw w).1) = [].
Proof.
  intros Hdata.
  assert (py_in CONF_PASSWORD (data entry') = false) as Hpw.
  { unfold py_in. by rewrite Hdata, lookup_delete_eq. }
  destruct (async_setup_august_trace hass entry' gw w)
    as (k & _ & Hk & Hh & _ & _).
  rewrite (effects_since_app _ _ _ Hh). clear Hh.
  unfold setup_august_effects, has_password, august_data_of in *.
  rewrite Hpw in *. cbn [length app] in *.
  do 11 (destruct k as [|k]; [done|]).
  lia.
Qed.

(** ** Further properties of [async_remove_config_entry_device] *)

Lemma any_present_no_domain config_entry ids w :
  (∀ identifier : string * string, identifier ∈ ids → identifier.1 ≠ DOMAIN) →
  any_present config_entry ids w = (w, Return false).
Proof.
  induction ids as [|identifier rest IH]; intros Hids; [done|].
  cbn [any_present]. unfold mbind, M_bind, bind, ret.
  destruct (String.eqb identifier.1 DOMAIN) eqn:Heq.
  - apply String.eqb_eq in Heq. destruct (Hids identifier); [|done].
    apply list_elem_of_here.
  - cbn [andb]. apply IH. intros other Hother. apply Hids.
    by apply list_elem_of_further.
Qed.

Lemma any_present_unloaded config_entry ids w :
  runtime_data w !! entry_id config_entry = None →
  any_present config_entry ids w
  = if existsb (fun identifier : string * string =>
                  String.eqb identifier.1 DOMAIN) ids
    then (w, Raise (Exn AttributeError ["runtime_data"] None))
    else (w, Return false).
Proof.
  intros Hrd. induction ids as [|identifier rest IH]; [done|].
  cbn [any_present existsb].
  unfold mbind, M_bind, bind, read_runtime_data, ret.
  destruct (String.eqb identifier.1 DOMAIN); cbn [andb orb].
  - by rewrite Hrd.
  - apply IH.
Qed.

Lemma existsb_iff {A} (f : A → bool) (l1 l2 : list A) :
  (∀ x, x ∈ l1 ∧ f x = true ↔ x ∈ l2 ∧ f x = true) →
  existsb f l1 = existsb f l2.
Proof.
  intros Hiff. apply Bool.eq_iff_eq_true. rewrite !existsb_exists.
  split; intros (x & Hin & Hf); exists x;
    rewrite <- list_elem_of_In in *; by apply Hiff.
Qed.

Lemma existsb_present_iff (rd : AugustData) (ids : gset (string * string)) :
  existsb (fun identifier : string * string =>
             String.eqb identifier.1 DOMAIN
             && truth (get_device rd identifier.2)) (elements ids) = true
  ↔ ∃ identifier, identifier ∈ ids
                  ∧ identifier.1 = DOMAIN
                  ∧ truth (get_device rd identifier.2) = true.
Proof.
  rewrite existsb_exists. split.
  - intros (identifier & Hin & [Hdom Htruth]%andb_prop).
    exists identifier. split; [|split; [|done]].
    + by apply elem_of_elements, list_elem_of_In.
    + by apply String.eqb_eq.
  - intros (identifier & Hin & Hdom & Htruth).
    exists identifier. split.
    + by apply list_elem_of_In, elem_of_elements.
    + apply andb_true_intro. split; [by apply String.eqb_eq|done].
Qed.

Lemma async_remove_config_entry_device_unfold hass config_entry device_entry w :
  async_remove_config_entry_device hass config_entry device_entry w
  = match any_present config_entry (elements (identifiers device_entry)) w with
    | (w', Return found) => (w', Return (negb found))
    | (w', Raise e) => (w', Raise e)
    end.
Proof. done. Qed.

(** X11. A device none of whose identifiers belongs to [DOMAIN] may be removed,
    and [runtime_data] is not read for it: the call returns [True] also for
    an entry that is not loaded.  A device without identifiers is the
    simplest case. *)
Theorem remove_allowed_without_domain_identifier
    hass config_entry device_entry w :
  (∀ identifier : string * string,
     identifier ∈ identifiers device_entry → identifier.1 ≠ DOMAIN) →
  async_remove_config_entry_device hass config_entry device_entry w
  = (w, Return true).
Proof.
  intros Hids. unfold async_remove_config_entry_device.
  unfold mbind, M_bind, bind at 1.
  rewrite any_present_no_domain; [done|].
  intros identifier Hin. by apply Hids, elem_of_elements.
Qed.


(** X13. Identifiers of other integrations play no part: the call has the same
    outcome on the device and on the device stripped of every identifier
    whose first component is not [DOMAIN]. *)
Theorem remove_ignores_other_domains hass config_entry device_entry w :
  async_remove_config_entry_device hass config_entry device_entry w
  = async_remove_config_entry_device hass config_entry
      {| identifiers :=
           filter (fun identifier : string * string => identifier.1 = DOMAIN)
             (identifiers device_entry) |} w.
Proof.
  rewrite !async_remove_config_entry_device_unfold. cbn [identifiers].
  destruct (runtime_data w !! entry_id config_entry) as [rd|] eqn:Hrd.
  - rewrite !(any_present_loaded _ _ _ _ Hrd).
    erewrite existsb_iff; [done|].
    intros identifier. rewrite !elem_of_elements, elem_of_filter.
    rewrite andb_true_iff, String.eqb_eq. tauto.
  - rewrite !(any_present_unloaded _ _ _ Hrd).
    erewrite existsb_iff; [done|].
    intros identifier. rewrite !elem_of_elements, elem_of_filter.
    rewrite String.eqb_eq. tauto.
Qed.

(** X14. Setup and removal fit together: after a run of [async_setup_entry] that
    returned, the call for that entry returns, and it answers from the
    [AugustData] object the setup has stored. *)
Theorem remove_after_setup hass hass' entry device_entry w w' r :
  async_setup_entry hass entry w = (w', Return r) →
  ∃ allowed,
    async_remove_config_entry_device hass' entry device_entry w'
    = (w', Return allowed)
    ∧ (allowed = true ↔
       ¬ ∃ identifier,
           identifier ∈ identifiers device_entry
           ∧ identifier.1 = DOMAIN
           ∧ truth (get_device
                      (august_data_of hass entry (gateway_of hass))
                      identifier.2) = true).
Proof.
  intros (w1 & _ & _ & Hrun)%async_setup_entry_returns.
  pose proof (async_setup_august_run hass entry (gateway_of hass) w1) as Hspec.
  rewrite Hrun in Hspec. cbn zeta in Hspec. destruct Hspec as (_ & _ & Hrd & _).
  assert (runtime_data w' !! entry_id entry
          = Some (august_data_of hass entry (gateway_of hass))) as Hd.
  { by rewrite Hrd, lookup_insert_eq. }
  unfold async_remove_config_entry_device. unfold mbind, M_bind, bind at 1.
  rewrite (any_present_loaded _ _ _ _ Hd). unfold ret.
  eexists. split; [done|].
  by rewrite negb_true_iff, <- not_true_iff_false, existsb_present_iff.
Qed.

End Properties.

(** * The properties on the sample inputs *)

Lemma setup_entry_auth_failed_witness :
  async_setup_entry (imports := sample_imports) (collaborators := invalid_auth)
    sample_hass entry_with_password empty_world
  = (setup_world invalid_auth entry_with_password,
     Raise (Exn ConfigEntryAuthFailed [] (Some (Exn InvalidAuth [] None)))).
Proof.
  apply (setup_entry_auth_failed (imports := sample_imports)
           (collaborators := invalid_auth)
           sample_hass entry_with_password empty_world (opened_world invalid_auth)).
  - vm_compute. reflexivity.
  - vm_compute. reflexivity.
  - right. vm_compute. reflexivity.
Defined.

Lemma setup_entry_timeout_not_ready_witness :
  async_setup_entry (imports := sample_imports) (collaborators := server_timeout)
    sample_hass entry_with_password empty_world
  = (setup_world server_timeout entry_with_password,
     Raise (Exn ConfigEntryNotReady ["Timed out connecting to august api"]
              (Some (Exn (OtherClass "ServerTimeoutError") [] None)))).
Proof.
  apply (setup_entry_timeout_not_ready (imports := sample_imports)
           (collaborators := server_timeout)
           sample_hass entry_with_password empty_world
           (opened_world server_timeout));
    vm_compute; reflexivity.
Defined.

Lemma setup_entry_api_error_not_ready_witness :
  ∃ raised,
    async_setup_entry (imports := sample_imports) (collaborators := cannot_connect)
      sample_hass entry_with_password empty_world
    = (setup_world cannot_connect entry_with_password, Raise raised)
    ∧ exc_type raised = ConfigEntryNotReady
    ∧ exc_cause raised = Some (Exn CannotConnect [] None).
Proof.
  apply (setup_entry_api_error_not_ready (imports := sample_imports)
           (collaborators := cannot_connect)
           sample_hass entry_with_password empty_world
           (opened_world cannot_connect)).
  - vm_compute. reflexivity.
  - vm_compute. reflexivity.
  - right. right. vm_compute. reflexivity.
  - vm_compute. reflexivity.
  - vm_compute. reflexivity.
Defined.

Lemma setup_entry_propagates_witness :
  async_setup_entry (imports := sample_imports) (collaborators := value_error)
    sample_hass entry_without_password empty_world
  = (setup_world value_error entry_without_password,
     Raise (Exn (OtherClass "ValueError") [] None)).
Proof.
  apply (setup_entry_propagates (imports := sample_imports)
           (collaborators := value_error)
           sample_hass entry_without_password empty_world
           (opened_world value_error));
    vm_compute; reflexivity.
Defined.

(** The claim of C5 as the spec words it, that every input leads to the same
    sequence of operations, fails: an entry that stores a password gets the
    call of [async_update_entry], an entry that does not, does not. *)
Lemma setup_august_sequence_depends_on_password :
  sample_operations entry_with_password
  = ["august_gateway.async_setup";
     "hass.config_entries.async_update_entry";
     "august_gateway.async_authenticate";
     "august_gateway.async_refresh_access_token_if_needed";
     "AugustData"; "entry.runtime_data ="; "hass.bus.async_listen";
     "entry.async_on_unload"; "entry.async_on_unload"; "data.async_setup";
     "hass.config_entries.async_forward_entry_setups"]
  ∧ sample_operations entry_without_password
    = ["august_gateway.async_setup";
       "august_gateway.async_authenticate";
       "august_gateway.async_refresh_access_token_if_needed";
       "AugustData"; "entry.runtime_data ="; "hass.bus.async_listen";
       "entry.async_on_unload"; "entry.async_on_unload"; "data.async_setup";
       "hass.config_entries.async_forward_entry_setups"]
  ∧ sample_operations entry_with_password
    ≠ sample_operations entry_without_password.
Proof. vm_compute. repeat split. discriminate. Qed.

Lemma setup_entry_order_witness :
  effects_since empty_world (setup_world all_return entry_with_password)
  = setup_entry_effects (imports := sample_imports) sample_hass entry_with_password.
Proof.
  apply (setup_entry_order (imports := sample_imports) (collaborators := all_return)
           sample_hass entry_with_password empty_world
           (setup_world all_return entry_with_password) true).
  vm_compute. reflexivity.
Defined.

Lemma cleanup_registered_before_forward_witness :
  before
    (entry_async_on_unload entry_with_password
       (async_stop
          (august_data_of sample_hass entry_with_password (gateway_of sample_hass))))
    (async_forward_entry_setups entry_with_password
       (PLATFORMS (Imports := sample_imports)))
    (effects_since empty_world
       (async_setup_august (imports := sample_imports) (collaborators := all_return)
          sample_hass entry_with_password (gateway_of sample_hass) empty_world).1)
  = true.
Proof.
  apply (cleanup_registered_before_forward (imports := sample_imports)
           (collaborators := all_return)
           sample_hass entry_with_password (gateway_of sample_hass) empty_world
           _ true).
  vm_compute. reflexivity.
Defined.

(** The claim of C8 as it is worded fails when the gateway setup raises: the
    password is a key of the entry's data and the run makes no update. *)
Lemma password_kept_when_gateway_setup_raises :
  py_in (CONF_PASSWORD (Imports := sample_imports)) (data entry_with_password) = true
  ∧ (async_setup_august (imports := sample_imports) (collaborators := cannot_connect)
       sample_hass entry_with_password (gateway_of sample_hass) empty_world).2
    = Raise (Exn CannotConnect [] None)
  ∧ entry_updates
      (effects_since empty_world
         (async_setup_august (imports := sample_imports)
            (collaborators := cannot_connect)
            sample_hass entry_with_password (gateway_of sample_hass) empty_world).1)
    = [].
Proof. vm_compute. done. Qed.

Lemma remove_device_iff_absent_witness :
  ∃ allowed,
    async_remove_config_entry_device (imports := sample_imports)
      sample_hass entry_without_password
      (sample_device [("august", "lock2"); ("zha", "lock1")]) loaded_world
    = (loaded_world, Return allowed)
    ∧ (allowed = true ↔
       ¬ ∃ identifier : string * string,
           identifier ∈ identifiers
             (sample_device [("august", "lock2"); ("zha", "lock1")])
           ∧ identifier.1 = DOMAIN (Imports := sample_imports)
           ∧ truth (Imports := sample_imports)
               (get_device
                  (august_data_of sample_hass entry_without_password
                     (gateway_of sample_hass))
                  identifier.2) = true).
Proof.
  apply (remove_device_iff_absent (imports := sample_imports)
           sample_hass entry_without_password
           (sample_device [("august", "lock2"); ("zha", "lock1")])
           loaded_world).
  vm_compute. reflexivity.
Defined.

(** Runs on the sample inputs. *)

Example setup_entry_returns_true :
  (async_setup_entry (imports := sample_imports) (collaborators := all_return)
     sample_hass entry_with_password empty_world).2 = Return true.
Proof. vm_compute. reflexivity. Qed.

Example remove_known_device_refused :
  (async_remove_config_entry_device (imports := sample_imports)
     sample_hass entry_without_password
     (sample_device [("august", "lock1")]) loaded_world).2 = Return false.
Proof. vm_compute. reflexivity. Qed.

Example remove_unknown_device_allowed :
  (async_remove_config_entry_device (imports := sample_imports)
     sample_hass entry_without_password
     (sample_device [("august", "lock2"); ("zha", "lock1")]) loaded_world).2
  = Return true.
Proof. vm_compute. reflexivity. Qed.

Example remove_device_of_unloaded_entry_raises :
  (async_remove_config_entry_device (imports := sample_imports)
     sample_hass entry_without_password
     (sample_device [("august", "lock1")]) empty_world).2
  = Raise (Exn AttributeError ["runtime_data"] None).
Proof. vm_compute. reflexivity. Qed.

(** * The further properties on the sample inputs *)

Lemma setup_entry_untranslated_before_try_witness :
  async_setup_entry (imports := sample_imports) (collaborators := session_timeout)
    sample_hass entry_with_password empty_world
  = (opened_world session_timeout, Raise (Exn TimeoutError [] None)).
Proof.
  apply (setup_entry_untranslated_before_try (imports := sample_imports)
           (collaborators := session_timeout)).
  vm_compute. reflexivity.
Defined.

Lemma setup_entry_never_swallows_witness :
  ∃ raised,
    async_setup_entry (imports := sample_imports) (collaborators := server_timeout)
      sample_hass entry_with_password empty_world
    = (setup_world server_timeout entry_with_password, Raise raised)
    ∧ exc_cause raised = Some (Exn (OtherClass "ServerTimeoutError") [] None).
Proof.
  destruct (setup_entry_never_swallows (imports := sample_imports)
              (collaborators := server_timeout)
              sample_hass entry_with_password empty_world
              (opened_world server_timeout)
              (setup_world server_timeout entry_with_password)
              (Exn (OtherClass "ServerTimeoutError") [] None))
    as (raised & Hrun & [(_ & _ & _ & Hto & _) | [Hcause _]]).
  - vm_compute. reflexivity.
  - vm_compute. reflexivity.
  - vm_compute in Hto. discriminate Hto.
  - exists raised. split; [exact Hrun | exact Hcause].
Defined.

Lemma setup_entry_api_error_no_message_witness :
  async_setup_entry (imports := sample_imports) (collaborators := cannot_connect)
    sample_hass entry_with_password empty_world
  = (setup_world cannot_connect entry_with_password,
     Raise (Exn ConfigEntryNotReady [] (Some (Exn CannotConnect [] None)))).
Proof.
  apply (setup_entry_api_error_no_message (imports := sample_imports)
           (collaborators := cannot_connect)
           sample_hass entry_with_password empty_world
           (opened_world cannot_connect)).
  - vm_compute. reflexivity.
  - vm_compute. reflexivity.
  - right. right. vm_compute. reflexivity.
  - vm_compute. reflexivity.
  - vm_compute. reflexivity.
  - vm_compute. reflexivity.
Defined.


Lemma setup_entry_leaves_other_entries_witness :
  runtime_data
    (async_setup_entry (imports := sample_imports) (collaborators := all_return)
       sample_hass entry_with_password loaded_world).1 !! "e2"
  = runtime_data loaded_world !! "e2".
Proof.
  apply (setup_entry_leaves_other_entries (imports := sample_imports)
           (collaborators := all_return)
           sample_hass entry_with_password loaded_world "e2").
  vm_compute. discriminate.
Defined.

Lemma password_removed_before_authenticating_witness :
  before
    (async_update_entry entry_with_password
       (delete "password" (data entry_with_password)))
    (gateway_async_authenticate (gateway_of sample_hass))
    (sample_effects invalid_auth)
  = true.
Proof.
  apply (password_removed_before_authenticating (imports := sample_imports)
           (collaborators := invalid_auth)
           sample_hass entry_with_password (gateway_of sample_hass) empty_world).
  - vm_compute. reflexivity.
  - refine (@bool_decide_unpack _ (list_elem_of_dec _ _) _).
    vm_compute. exact I.
Defined.

Lemma platforms_forwarded_last_witness :
  sample_effects all_return
  = setup_august_effects (imports := sample_imports)
      sample_hass entry_with_password (gateway_of sample_hass).
Proof.
  apply (platforms_forwarded_last (imports := sample_imports)
           (collaborators := all_return)
           sample_hass entry_with_password (gateway_of sample_hass) empty_world).
  refine (@bool_decide_unpack _ (list_elem_of_dec _ _) _).
    vm_compute. exact I.
Defined.

Lemma cleanup_registered_before_data_setup_witness :
  before
    (entry_async_on_unload entry_with_password
       (async_stop
          (august_data_of sample_hass entry_with_password (gateway_of sample_hass))))
    (data_async_setup
       (august_data_of sample_hass entry_with_password (gateway_of sample_hass)))
    (sample_effects data_setup_fails)
  = true.
Proof.
  apply (cleanup_registered_before_data_setup (imports := sample_imports)
           (collaborators := data_setup_fails)
           sample_hass entry_with_password (gateway_of sample_hass) empty_world).
  refine (@bool_decide_unpack _ (list_elem_of_dec _ _) _).
    vm_compute. exact I.
Defined.

Lemma stored_data_needs_no_second_update_witness :
  entry_updates
    (effects_since empty_world
       (async_setup_august (imports := sample_imports) (collaborators := all_return)
          sample_hass entry_after_update (gateway_of sample_hass) empty_world).1)
  = [].
Proof.
  apply (stored_data_needs_no_second_update (imports := sample_imports)
           (collaborators := all_return)
           sample_hass entry_with_password entry_after_update).
  vm_compute. reflexivity.
Defined.

Lemma remove_allowed_without_domain_identifier_witness :
  async_remove_config_entry_device (imports := sample_imports)
    sample_hass entry_with_password (sample_device [("zha", "lock1")]) empty_world
  = (empty_world, Return true).
Proof.
  apply (remove_allowed_without_domain_identifier (imports := sample_imports)).
  intros identifier Hin. apply elem_of_list_to_set in Hin.
  apply list_elem_of_singleton in Hin. subst identifier. discriminate.
Defined.

Lemma remove_after_setup_witness :
  ∃ allowed,
    async_remove_config_entry_device (imports := sample_imports)
      sample_hass entry_without_password
      (sample_device [("august", "lock1")]) loaded_world
    = (loaded_world, Return allowed)
    ∧ (allowed = true ↔
       ¬ ∃ identifier : string * string,
           identifier ∈ identifiers (sample_device [("august", "lock1")])
           ∧ identifier.1 = DOMAIN (Imports := sample_imports)
           ∧ truth (Imports := sample_imports)
               (get_device
                  (august_data_of sample_hass entry_without_password
                     (gateway_of sample_hass))
                  identifier.2) = true).
Proof.
  apply (remove_after_setup (imports := sample_imports)
           (collaborators := all_return)
           sample_hass sample_hass entry_without_password
           (sample_device [("august", "lock1")]) empty_world loaded_world true).
  vm_compute. reflexivity.
Defined.

(** A run whose [data.async_setup] raises: the entry keeps the
    [runtime_data] it was assigned. *)
Example runtime_data_kept_when_data_setup_raises :
  (async_setup_august (imports := sample_imports) (collaborators := data_setup_fails)
     sample_hass entry_with_password (gateway_of sample_hass) empty_world).2
  = Raise (Exn CannotConnect [] None)
  ∧ runtime_data
      (async_setup_august (imports := sample_imports)
         (collaborators := data_setup_fails)
         sample_hass entry_with_password (gateway_of sample_hass) empty_world).1
    !! "e1"
    = Some (august_data_of sample_hass entry_with_password (gateway_of sample_hass)).
Proof. vm_compute. done. Qed.
